(** * ML Analytics Dashboard: the batch-scoring pipeline and the model lifecycle

    A shallow embedding of [main.py]: the request handlers and the startup
    hook are written in a small state-and-exception monad over the module's
    globals, the numpy generator and a journal of the effects performed
    (logger records and calls into numpy / scikit-learn).  The libraries
    themselves (numpy, scikit-learn) are an interface, [Platform], over
    which every definition and theorem is generic. *)

From Stdlib Require Import ZArith List String Lia.
From Stdlib Require Import Floats.SpecFloat.
From stdpp Require Import base option list gmap strings pretty.

#[local] Set Warnings "-register-all".
#[local] Open Scope string_scope.
#[local] Open Scope Z_scope.

(** ** Python values *)

(** A Python [float] is an IEEE binary64 value. *)
Abbreviation float := spec_float.

Definition prec : Z := 53.
Definition emax : Z := 1024.

(** [x - y] on floats. *)
Definition float_sub (x y : float) : float := SFsub prec emax x y.

(** The float literals of the source, as exact binary64 values. *)
Definition float_0_1 : float := S754_finite false 7205759403792794 (-56).
Definition float_0_85 : float := S754_finite false 7656119366529843 (-53).
Definition float_0_12 : float := S754_finite false 8646911284551352 (-56).
Definition float_45_2 : float := S754_finite false 6361334473660826 (-47).
Definition float_0_02 : float := S754_finite false 5764607523034235 (-58).

(** [typing.Any]: what a JSON-decoded value can be. *)
Inductive Any : Type :=
| ANone
| ABool (b : bool)
| AInt (z : Z)
| AFloat (f : float)
| AStr (s : string)
| AList (l : list Any)
| ADict (d : gmap string Any).

(** [datetime.datetime]; [tzinfo] is the UTC offset in seconds, if aware. *)
Record datetime : Type := mk_datetime {
  year : Z;
  month : Z;
  day : Z;
  hour : Z;
  minute : Z;
  second : Z;
  microsecond : Z;
  tzinfo : option Z
}.


(** [len] of a [str] or of a [list], as a Python [int]. *)
Definition len_str (s : string) : Z := Z.of_nat (String.length s).
Definition len {A : Type} (l : list A) : Z := Z.of_nat (List.length l).

(** Truth value of a list: [bool(l)]. *)
Definition truthy {A : Type} (l : list A) : bool :=
  match l with
  | [] => false
  | _ :: _ => true
  end.

(** ** Pydantic models *)

Record AnalyticsData : Type := mk_AnalyticsData {
  timestamp : datetime;
  user_id : string;
  event_type : string;
  page_url : string;
  session_id : string;
  metadata : option (gmap string Any)
}.

Record AnalyticsResponse : Type := mk_AnalyticsResponse {
  status : string;
  message : string;
  data : option (gmap string Any);
  response_timestamp : datetime
}.

Record HealthResponse : Type := mk_HealthResponse {
  health_status : string;
  version : string;
  uptime : float;
  services : gmap string string
}.

(** ** Exceptions *)

(** Instances of [Exception], the class both [except] clauses of the source
    name: either one raised by a library (its class name and its [str]), or
    FastAPI's [HTTPException].  Interrupts and exits, which derive from
    [BaseException] only, are not failures of a library call and are not
    modelled. *)
Inductive exn : Type :=
| Exception (cls : string) (args : string)
| HTTPException (status_code : Z) (detail : string).

(** [str(e)]. *)
Definition str_exn (e : exn) : string :=
  match e with
  | Exception _ args => args
  | HTTPException status_code detail => pretty status_code ++ ": " ++ detail
  end.

Definition HTTP_500_INTERNAL_SERVER_ERROR : Z := 500.
Definition HTTP_503_SERVICE_UNAVAILABLE : Z := 503.

(** What [None.predict] raises. *)
Definition AttributeError_NoneType (attr : string) : exn :=
  Exception "AttributeError"
    ("'NoneType' object has no attribute '" ++ attr ++ "'").

(** ** The libraries the service calls *)

(** numpy and scikit-learn, as the service sees them.  [fit] works in place:
    it returns the estimator as it is after the call, also when it fails.
    [predict] only reads the estimator.  [randn] draws from numpy's
    process-wide generator. *)
Class Platform : Type := {
  Estimator : Type;
  ndarray : Type;
  RandomState : Type;
  IsolationForest : float -> Z -> exn + Estimator;
  randn : nat -> nat -> RandomState -> (exn + ndarray) * RandomState;
  fit : Estimator -> ndarray -> (exn + unit) * Estimator;
  predict : Estimator -> list (list Z) -> exn + list Z
}.

(** The readings of the wall clock one handler call makes. *)
Record Clock : Type := mk_Clock {
  time_time : float;
  datetime_now : datetime;
  isoformat_now : string
}.

Inductive Outcome (A : Type) : Type :=
| Return (a : A)
| Raise (e : exn).
Arguments Return {A} a.
Arguments Raise {A} e.

Section Service.
Context `{P : Platform}.

(** ** Process state *)

(** The module-level variables. *)
Record Globals : Type := mk_Globals {
  anomaly_detector : option Estimator;
  model_loaded : bool;
  startup_time : float
}.

(** What a run does besides computing: logger records and library calls. *)
Inductive Effect : Type :=
| LogInfo (msg : string)
| LogError (msg : string)
| CallIsolationForest (contamination : float) (random_state : Z)
| CallRandn (d0 d1 : nat)
| CallFit (X : ndarray)
| CallPredict (X : list (list Z)).

Record World : Type := mk_World {
  globals : Globals;
  np_random : RandomState;
  trace : list Effect
}.

Definition set_globals (g : Globals) (w : World) : World :=
  mk_World g (np_random w) (trace w).

Definition set_np_random (r : RandomState) (w : World) : World :=
  mk_World (globals w) r (trace w).

Definition emit (e : Effect) (w : World) : World :=
  mk_World (globals w) (np_random w) (trace w ++ [e]).

(** ** The monad of handler bodies *)

Definition M (A : Type) : Type := World -> Outcome A * World.

Definition ret {A : Type} (a : A) : M A := fun w => (Return a, w).

Definition bind {A B : Type} (m : M A) (k : A -> M B) : M B :=
  fun w =>
    match m w with
    | (Return a, w') => k a w'
    | (Raise e, w') => (Raise e, w')
    end.

#[local] Notation "'let*' x ':=' m 'in' k" := (bind m (fun x => k))
  (at level 10, x name, m at level 100, k at level 200).
#[local] Notation "m '>>' k" := (bind m (fun _ => k))
  (at level 90, right associativity).

Definition raise {A : Type} (e : exn) : M A := fun w => (Raise e, w).

(** [try: body  except Exception as e: handler e]. *)
Definition try_except {A : Type} (body : M A) (handler : exn -> M A) : M A :=
  fun w =>
    match body w with
    | (Return a, w') => (Return a, w')
    | (Raise e, w') => handler e w'
    end.

Definition read_global {A : Type} (f : Globals -> A) : M A :=
  fun w => (Return (f (globals w)), w).

Definition assign_anomaly_detector (v : option Estimator) : M unit :=
  fun w =>
    (Return tt,
     set_globals (mk_Globals v (model_loaded (globals w))
                             (startup_time (globals w))) w).

Definition assign_model_loaded (b : bool) : M unit :=
  fun w =>
    (Return tt,
     set_globals (mk_Globals (anomaly_detector (globals w)) b
                             (startup_time (globals w))) w).

Definition logger_info (msg : string) : M unit :=
  fun w => (Return tt, emit (LogInfo msg) w).

Definition logger_error (msg : string) : M unit :=
  fun w => (Return tt, emit (LogError msg) w).

Definition lift_result {A : Type} (r : exn + A) : M A :=
  match r with
  | inl e => raise e
  | inr a => ret a
  end.

(** [IsolationForest(contamination=c, random_state=s)]. *)
Definition new_IsolationForest (c : float) (s : Z) : M Estimator :=
  fun w => lift_result (IsolationForest c s) (emit (CallIsolationForest c s) w).

(** [np.random.randn(d0, d1)]. *)
Definition np_random_randn (d0 d1 : nat) : M ndarray :=
  fun w =>
    let '(r, rng) := randn d0 d1 (np_random w) in
    lift_result r (set_np_random rng (emit (CallRandn d0 d1) w)).

(** [anomaly_detector.fit(X)]: the object the global names is fitted in
    place, so the global names the fitted (or half-fitted) object after. *)
Definition anomaly_detector_fit (X : ndarray) : M unit :=
  let* det := read_global anomaly_detector in
  match det with
  | None => raise (AttributeError_NoneType "fit")
  | Some est =>
      fun w =>
        let '(r, est') := fit est X in
        (assign_anomaly_detector (Some est') >> lift_result r)
          (emit (CallFit X) w)
  end.

(** [anomaly_detector.predict(X)]. *)
Definition anomaly_detector_predict (X : list (list Z)) : M (list Z) :=
  let* det := read_global anomaly_detector in
  match det with
  | None => raise (AttributeError_NoneType "predict")
  | Some est => fun w => lift_result (predict est X) (emit (CallPredict X) w)
  end.

(** ** Startup hook *)

(** [load_ml_model], registered with [@app.on_event("startup")]. *)
Definition load_ml_model : M unit :=
  try_except
    (let* est := new_IsolationForest float_0_1 42 in
     assign_anomaly_detector (Some est) >>
     let* sample_data := np_random_randn 1000 5 in
     anomaly_detector_fit sample_data >>
     assign_model_loaded true >>
     logger_info "ML model loaded successfully")
    (fun e =>
       logger_error ("Failed to load ML model: " ++ str_exn e) >>
       assign_model_loaded false).

(** ** Feature extraction and scoring *)

(** The list literal built for one item in the body of the loop. *)
Definition feature_vector (item : AnalyticsData) : list Z :=
  [ len_str (user_id item);
    len_str (page_url item);
    len_str (session_id item);
    hour (timestamp item);
    minute (timestamp item) ].

(** [features = []], then [features.append(feature_vector)] per item. *)
Definition extract_features (data : list AnalyticsData) : list (list Z) :=
  fold_left (fun features item => (features ++ [feature_vector item])%list)
            data [].

(** [sum(1 for a in anomalies if a == -1)]. *)
Definition count_anomalies (anomalies : list Z) : Z :=
  fold_left (fun acc a => if a =? -1 then acc + 1 else acc) anomalies 0.

(** [POST /api/v1/analytics/upload]. *)
Definition upload_analytics_data (now : Clock) (data : list AnalyticsData)
  : M AnalyticsResponse :=
  try_except
    (let processed_count := len data in
     let* loaded := read_global model_loaded in
     let* anomaly_count :=
       (if loaded && truthy data then
          let features := extract_features data in
          let* anomalies := anomaly_detector_predict features in
          ret (count_anomalies anomalies)
        else ret 0) in
     ret (mk_AnalyticsResponse
            "success"
            ("Processed " ++ pretty processed_count ++ " events, detected "
               ++ pretty anomaly_count ++ " anomalies")
            (Some (<["processed_events" := AInt processed_count]>
                  (<["anomalies_detected" := AInt anomaly_count]>
                  (<["processing_time" := AFloat (time_time now)]> ∅))))
            (datetime_now now)))
    (fun e =>
       logger_error ("Error processing analytics data: " ++ str_exn e) >>
       raise (HTTPException HTTP_500_INTERNAL_SERVER_ERROR
                ("Failed to process analytics data: " ++ str_exn e))).

(** ** The other endpoints *)

(** [GET /health]. *)
Definition health_check (now : Clock) : M HealthResponse :=
  let* t0 := read_global startup_time in
  let uptime := float_sub (time_time now) t0 in
  let* loaded := read_global model_loaded in
  ret (mk_HealthResponse
         "healthy" "1.0.0" uptime
         (<["api" := "healthy"]>
         (<["ml_model" := if loaded then "healthy" else "unhealthy"]>
         (<["database" := "healthy"]>
         (<["redis" := "healthy"]> ∅))))).

(** [GET /]. *)
Definition root : M Any :=
  ret (ADict (<["message" := AStr "ML Analytics Dashboard API"]>
             (<["version" := AStr "1.0.0"]>
             (<["status" := AStr "running"]>
             (<["docs" := AStr "/docs"]>
             (<["health" := AStr "/health"]> ∅)))))).

Definition top_page (page : string) (views : Z) : Any :=
  ADict (<["page" := AStr page]> (<["views" := AInt views]> ∅)).

(** [GET /api/v1/analytics/summary]. *)
Definition get_analytics_summary (now : Clock) : M Any :=
  ret (ADict (<["total_events" := AInt 12543]>
             (<["unique_users" := AInt 892]>
             (<["sessions" := AInt 1456]>
             (<["anomalies_detected" := AInt 23]>
             (<["last_updated" := AStr (isoformat_now now)]>
             (<["top_pages" := AList [ top_page "/dashboard" 1234;
                                       top_page "/analytics" 987;
                                       top_page "/reports" 654 ]]> ∅))))))).

(** [GET /api/v1/analytics/realtime]. *)
Definition get_realtime_metrics (now : Clock) : M Any :=
  ret (ADict (<["current_users" := AInt 45]>
             (<["events_per_minute" := AInt 123]>
             (<["response_time_avg" := AFloat float_45_2]>
             (<["error_rate" := AFloat float_0_02]>
             (<["timestamp" := AStr (isoformat_now now)]> ∅)))))).

(** [GET /api/v1/analytics/predictions]. *)
Definition get_ml_predictions (now : Clock) : M Any :=
  let* loaded := read_global model_loaded in
  if negb loaded then
    raise (HTTPException HTTP_503_SERVICE_UNAVAILABLE "ML model not loaded")
  else
    let predictions :=
      ADict (<["traffic_forecast" :=
                 ADict (<["next_hour" := AInt 1250]>
                       (<["next_day" := AInt 30000]>
                       (<["confidence" := AFloat float_0_85]> ∅)))]>
            (<["anomaly_score" := AFloat float_0_12]>
            (<["recommendations" :=
                 AList [ AStr "Traffic spike expected at 2 PM";
                         AStr "Consider scaling backend services";
                         AStr "Monitor error rates closely" ]]>
            (<["timestamp" := AStr (isoformat_now now)]> ∅)))) in
    ret predictions.

(** ** The process: import, startup, then requests *)

Inductive Request : Type :=
| GET_health
| GET_root
| POST_upload (data : list AnalyticsData)
| GET_summary
| GET_realtime
| GET_predictions.

Inductive Reply : Type :=
| HealthReply (r : HealthResponse)
| AnalyticsReply (r : AnalyticsResponse)
| JsonReply (v : Any).

(** Routing of a request to its handler. *)
Definition handle (now : Clock) (req : Request) : M Reply :=
  match req with
  | GET_health => let* r := health_check now in ret (HealthReply r)
  | GET_root => let* r := root in ret (JsonReply r)
  | POST_upload data =>
      let* r := upload_analytics_data now data in ret (AnalyticsReply r)
  | GET_summary => let* r := get_analytics_summary now in ret (JsonReply r)
  | GET_realtime => let* r := get_realtime_metrics now in ret (JsonReply r)
  | GET_predictions => let* r := get_ml_predictions now in ret (JsonReply r)
  end.

(** The application is [Booting] until its startup event has run, then
    [Serving]; a startup hook that raises aborts the start ([Aborted]). *)
Inductive Phase : Type := Booting | Serving | Aborted.

Record Process : Type := mk_Process {
  phase : Phase;
  world : World
}.

(** The state after the module body has run: the two model globals at
    their initial values (lines 36-37), [startup_time] read from the clock. *)
Definition import_module (t0 : float) (rng : RandomState) : Process :=
  mk_Process Booting (mk_World (mk_Globals None false t0) rng []).

Inductive Action : Type :=
| Startup
| Serve (now : Clock) (req : Request).

(** One step of the process.  The startup event fires once, before any
    request is served. *)
Definition step (a : Action) (p : Process) : option Process :=
  match a, phase p with
  | Startup, Booting =>
      match load_ml_model (world p) with
      | (Return _, w') => Some (mk_Process Serving w')
      | (Raise _, w') => Some (mk_Process Aborted w')
      end
  | Serve now req, Serving =>
      Some (mk_Process Serving (snd (handle now req (world p))))
  | _, _ => None
  end.

(** The states an execution goes through, the first one included. *)
Fixpoint run (acts : list Action) (p : Process) : list Process :=
  p :: match acts with
       | [] => []
       | a :: rest =>
           match step a p with
           | Some p' => run rest p'
           | None => []
           end
       end.

(** [isReady()]. *)
Definition is_ready (p : Process) : bool := model_loaded (globals (world p)).

End Service.

(** ** A small instance of the interface

    A one-split stand-in for the forest, used to run the service on
    concrete inputs: a fitted estimator holds a bound, and a vector is an
    outlier when its coordinates sum to more than the bound. *)
Module ThresholdForest.

Definition sum_row (row : list Z) : Z := fold_right Z.add 0 row.

Definition not_fitted : exn :=
  Exception "NotFittedError" "This IsolationForest instance is not fitted yet.".

Definition empty_sample : exn :=
  Exception "ValueError" "Found array with 0 sample(s)".

Definition verdict (bound : Z) (row : list Z) : Z :=
  if bound <? sum_row row then -1 else 1.

Definition platform : Platform := {|
  Estimator := option Z;
  ndarray := list (list Z);
  RandomState := Z;
  IsolationForest := fun _ _ => inr None;
  randn := fun d0 d1 seed =>
    (inr (repeat (repeat (seed mod 3) d1) d0), (seed * 1103515245 + 12345) mod 2147483648);
  fit := fun est X =>
    match X with
    | [] => (inl empty_sample, est)
    | _ :: _ => (inr tt, Some 60)
    end;
  predict := fun est X =>
    match est with
    | None => inl not_fitted
    | Some bound => inr (map (verdict bound) X)
    end
|}.

Definition out_of_memory : exn :=
  Exception "MemoryError" "Unable to allocate array".

(** The same, on a machine where fitting always runs out of memory. *)
Definition starved : Platform := {|
  Estimator := option Z;
  ndarray := list (list Z);
  RandomState := Z;
  IsolationForest := IsolationForest (Platform := platform);
  randn := randn (Platform := platform);
  fit := fun est X => (inl out_of_memory, est);
  predict := predict (Platform := platform)
|}.

Definition noon : datetime := mk_datetime 2024 5 17 12 0 0 0 None.

Definition clock : Clock :=
  mk_Clock (S754_finite false 3 0) noon "2024-05-17T12:00:00".

(** Two events: the coordinates of the first sum to 48, of the second to 113. *)
Definition quiet : AnalyticsData :=
  mk_AnalyticsData (mk_datetime 2024 5 17 10 30 0 0 None)
                   "u1" "click" "/home" "s" None.

Definition loud : AnalyticsData :=
  mk_AnalyticsData (mk_datetime 2024 5 17 23 59 58 0 None)
                   "user-0042" "view" "/reports/annual" "sess-9f" None.

(** [quiet] with other contents of the same lengths, another event type,
    some metadata and another day and second. *)
Definition quiet' : AnalyticsData :=
  mk_AnalyticsData (mk_datetime 1999 12 31 10 30 59 999999 (Some 3600))
                   "zz" "purchase" "/cart" "t"
                   (Some (<["k" := AInt 7]> ∅)).

Definition fresh : World (P := platform) :=
  mk_World (P := platform) (mk_Globals (P := platform) None false (S754_zero false)) 7 [].

Definition ready : World (P := platform) :=
  mk_World (P := platform)
           (mk_Globals (P := platform) (Some (Some 60)) true (S754_zero false)) 7 [].

Definition unfitted : World (P := platform) :=
  mk_World (P := platform)
           (mk_Globals (P := platform) (Some None) true (S754_zero false)) 7 [].

Definition bad_parameter : exn :=
  Exception "InvalidParameterError"
    "The 'contamination' parameter of IsolationForest must be a str among {'auto'} or a float in the range (0.0, 0.5].".

(** The same, with a constructor that rejects its arguments. *)
Definition unbuildable : Platform := {|
  Estimator := option Z;
  ndarray := list (list Z);
  RandomState := Z;
  IsolationForest := fun _ _ => inl bad_parameter;
  randn := randn (Platform := platform);
  fit := fit (Platform := platform);
  predict := predict (Platform := platform)
|}.

Definition unbuildable_fresh : World (P := unbuildable) :=
  mk_World (P := unbuildable)
           (mk_Globals (P := unbuildable) None false (S754_zero false)) 7 [].

Definition starved_fresh : World (P := starved) :=
  mk_World (P := starved) (mk_Globals (P := starved) None false (S754_zero false)) 7 [].

Definition starved_ready : World (P := starved) :=
  mk_World (P := starved)
           (mk_Globals (P := starved) (Some (Some 60)) true (S754_zero false)) 7 [].

End ThresholdForest.

(** ** Vocabulary of the specification *)

(** The two verdicts, as [predict] encodes them. *)
Definition Anomalous : Z := -1.
Definition Normal : Z := 1.

(** How many verdicts of a sequence are [Anomalous]. *)
Definition anomalous_verdicts (verdicts : list Z) : nat :=
  count_occ Z.eq_dec verdicts Anomalous.

(** The FeatureVector of the data model, in the specification's words:
    the three lengths, then the hour and the minute of the timestamp. *)
Definition reference_feature_vector (ev : AnalyticsData) : list Z :=
  (map (fun s => Z.of_nat (String.length s))
       [user_id ev; page_url ev; session_id ev]
     ++ map (fun part => part (timestamp ev)) [hour; minute])%list.

(** Two events that agree on the five derived values. *)
Definition same_features (e1 e2 : AnalyticsData) : Prop :=
  String.length (user_id e1) = String.length (user_id e2) /\
  String.length (page_url e1) = String.length (page_url e2) /\
  String.length (session_id e1) = String.length (session_id e2) /\
  hour (timestamp e1) = hour (timestamp e2) /\
  minute (timestamp e1) = minute (timestamp e2).

(** The entries of a response's [data] payload. *)
Definition payload (key : string) (r : AnalyticsResponse) : option Any :=
  match data r with
  | Some d => d !! key
  | None => None
  end.

Definition processed_events : AnalyticsResponse -> option Any :=
  payload "processed_events".

Definition anomalies_detected : AnalyticsResponse -> option Any :=
  payload "anomalies_detected".

(** Rising and falling edges of a sequence of readiness flags. *)
Fixpoint rises (flags : list bool) : nat :=
  match flags with
  | a :: (b :: _) as rest => (if negb a && b then 1 else 0)%nat + rises rest
  | _ => 0%nat
  end.

Fixpoint falls (flags : list bool) : nat :=
  match flags with
  | a :: (b :: _) as rest => (if a && negb b then 1 else 0)%nat + falls rest
  | _ => 0%nat
  end.

(** Whether an outcome is an exception. *)
Definition raised {A : Type} (o : Outcome A) : bool :=
  match o with
  | Return _ => false
  | Raise _ => true
  end.

Section Journal.
Context `{P : Platform}.

Definition is_fit_call (e : Effect) : bool :=
  match e with
  | CallFit _ => true
  | _ => false
  end.

Definition is_predict_call (e : Effect) : bool :=
  match e with
  | CallPredict _ => true
  | _ => false
  end.

Definition is_construction (e : Effect) : bool :=
  match e with
  | CallIsolationForest _ _ => true
  | _ => false
  end.

Definition is_randn_call (e : Effect) : bool :=
  match e with
  | CallRandn _ _ => true
  | _ => false
  end.

Definition is_log_record (e : Effect) : bool :=
  match e with
  | LogInfo _ | LogError _ => true
  | _ => false
  end.

(** How many entries of a journal satisfy a test. *)
Definition calls (test : Effect -> bool) (t : list Effect) : nat :=
  List.length (List.filter test t).

(** The try block of [load_ml_model] alone: construction, sampling, fitting
    and publication, with nothing caught. *)
Definition load_ml_model_try : M unit :=
  bind (new_IsolationForest float_0_1 42) (fun est =>
  bind (assign_anomaly_detector (Some est)) (fun _ =>
  bind (np_random_randn 1000 5) (fun sample_data =>
  bind (anomaly_detector_fit sample_data) (fun _ =>
  bind (assign_model_loaded true) (fun _ =>
  logger_info "ML model loaded successfully"))))).

(** The scoring branch of [upload_analytics_data] alone: extraction, the
    call to [predict] and the count. *)
Definition score (data : list AnalyticsData) : M Z :=
  bind (anomaly_detector_predict (extract_features data)) (fun anomalies =>
  ret (count_anomalies anomalies)).

(** The response of a successful upload. *)
Definition success_response (now : Clock) (processed_count anomaly_count : Z)
  : AnalyticsResponse :=
  mk_AnalyticsResponse
    "success"
    ("Processed " ++ pretty processed_count ++ " events, detected "
       ++ pretty anomaly_count ++ " anomalies")
    (Some (<["processed_events" := AInt processed_count]>
          (<["anomalies_detected" := AInt anomaly_count]>
          (<["processing_time" := AFloat (time_time now)]> ∅))))
    (datetime_now now).

End Journal.

(** * Properties *)

(** ** Feature extraction *)

Lemma fold_append_map {A B : Type} (f : A -> B) (l : list A) (acc : list B) :
  fold_left (fun features item => (features ++ [f item])%list) l acc
  = (acc ++ map f l)%list.
Proof.
  revert acc. induction l as [|x l IH]; intros acc; simpl.
  - now rewrite app_nil_r.
  - rewrite IH, <- app_assoc. reflexivity.
Qed.

Lemma feature_vector_reference (ev : AnalyticsData) :
  feature_vector ev = reference_feature_vector ev.
Proof. reflexivity. Qed.

Lemma extract_features_map (data : list AnalyticsData) :
  extract_features data = map feature_vector data.
Proof. unfold extract_features. now rewrite fold_append_map. Qed.


Lemma extract_features_length (data : list AnalyticsData) :
  List.length (extract_features data) = List.length data.
Proof. rewrite extract_features_map. apply length_map. Qed.

Lemma same_features_vector (e1 e2 : AnalyticsData) :
  same_features e1 e2 -> feature_vector e1 = feature_vector e2.
Proof.
  intros (Hu & Hp & Hs & Hh & Hm). unfold feature_vector, len_str.
  now rewrite Hu, Hp, Hs, Hh, Hm.
Qed.

Lemma same_features_extract (b1 b2 : list AnalyticsData) :
  Forall2 same_features b1 b2 -> extract_features b1 = extract_features b2.
Proof.
  intros H. rewrite !extract_features_map.
  induction H as [|e1 e2 b1 b2 He _ IH]; simpl.
  - reflexivity.
  - now rewrite (same_features_vector _ _ He), IH.
Qed.

(** ** Counting *)

Lemma count_anomalies_from (verdicts : list Z) (acc : Z) :
  fold_left (fun acc a => if a =? -1 then acc + 1 else acc) verdicts acc
  = acc + Z.of_nat (anomalous_verdicts verdicts).
Proof.
  revert acc. unfold anomalous_verdicts, Anomalous.
  induction verdicts as [|a l IH]; intros acc; simpl.
  - lia.
  - rewrite IH. destruct (Z.eqb_spec a (-1)) as [->|Hne].
    + destruct (Z.eq_dec (-1) (-1)) as [_|Hn]; [lia | now elim Hn].
    + destruct (Z.eq_dec a (-1)) as [He|_]; [now elim Hne | lia].
Qed.

Lemma count_anomalies_spec (verdicts : list Z) :
  count_anomalies verdicts = Z.of_nat (anomalous_verdicts verdicts).
Proof. unfold count_anomalies. now rewrite count_anomalies_from. Qed.

(** ** The batch-scoring pipeline *)

Section Pipeline.
Context `{P : Platform}.

Lemma payload_processed (now : Clock) (n k : Z) :
  processed_events (success_response now n k) = Some (AInt n).
Proof. reflexivity. Qed.

Lemma payload_anomalies (now : Clock) (n k : Z) :
  anomalies_detected (success_response now n k) = Some (AInt k).
Proof. reflexivity. Qed.

Lemma truthy_nonempty {A : Type} (l : list A) : l <> [] -> truthy l = true.
Proof. destruct l; [congruence | reflexivity]. Qed.

(** The else branch: the model is not loaded, or the batch is empty. *)
Lemma upload_not_scored (now : Clock) (data : list AnalyticsData) (w : World) :
  model_loaded (globals w) && truthy data = false ->
  upload_analytics_data now data w
  = (Return (success_response now (len data) 0), w).
Proof.
  intros Hcond.
  unfold upload_analytics_data, try_except, bind, read_global; simpl.
  rewrite Hcond. reflexivity.
Qed.

(** The scoring branch is taken when the model is loaded and the batch is
    not empty; the handler then wraps what [score] does. *)
Lemma upload_scored (now : Clock) (data : list AnalyticsData) (w : World) :
  model_loaded (globals w) && truthy data = true ->
  upload_analytics_data now data w
  = match score data w with
    | (Return k, w') => (Return (success_response now (len data) k), w')
    | (Raise e, w') =>
        (Raise (HTTPException HTTP_500_INTERNAL_SERVER_ERROR
                  ("Failed to process analytics data: " ++ str_exn e)),
         emit (LogError ("Error processing analytics data: " ++ str_exn e)) w')
    end.
Proof.
  intros Hcond.
  unfold upload_analytics_data, try_except, bind, read_global; simpl.
  rewrite Hcond. unfold score, bind.
  destruct (anomaly_detector_predict (extract_features data) w) as [[vs|e] w'];
    reflexivity.
Qed.

(** What [score] does, by cases on the detector and on [predict]. *)
Lemma score_cases (data : list AnalyticsData) (w : World) :
  score data w
  = match anomaly_detector (globals w) with
    | None => (Raise (AttributeError_NoneType "predict"), w)
    | Some est =>
        match predict est (extract_features data) with
        | inl e => (Raise e, emit (CallPredict (extract_features data)) w)
        | inr verdicts =>
            (Return (count_anomalies verdicts),
             emit (CallPredict (extract_features data)) w)
        end
    end.
Proof.
  unfold score, anomaly_detector_predict, bind, read_global; simpl.
  destruct (anomaly_detector (globals w)) as [est|]; [|reflexivity].
  destruct (predict est (extract_features data)) as [e|vs]; reflexivity.
Qed.

Lemma emit_globals (e : Effect) (w : World) : globals (emit e w) = globals w.
Proof. reflexivity. Qed.

Lemma score_globals (data : list AnalyticsData) (w : World) :
  globals (snd (score data w)) = globals w.
Proof.
  rewrite score_cases.
  destruct (anomaly_detector (globals w)) as [est|]; [|reflexivity].
  destruct (predict est (extract_features data)); reflexivity.
Qed.

(** The upload handler assigns to no global. *)
Lemma upload_globals (now : Clock) (data : list AnalyticsData) (w : World) :
  globals (snd (upload_analytics_data now data w)) = globals w.
Proof.
  destruct (model_loaded (globals w) && truthy data) eqn:Hcond.
  - rewrite (upload_scored _ _ _ Hcond).
    pose proof (score_globals data w) as Hs.
    destruct (score data w) as [[k|e] w']; simpl in *; assumption.
  - now rewrite (upload_not_scored _ _ _ Hcond).
Qed.

(** It raises nothing but the server error. *)
Lemma upload_raises_500 (now : Clock) (data : list AnalyticsData) (w : World)
      (e : exn) (w' : World) :
  upload_analytics_data now data w = (Raise e, w') ->
  exists detail, e = HTTPException HTTP_500_INTERNAL_SERVER_ERROR detail.
Proof.
  destruct (model_loaded (globals w) && truthy data) eqn:Hcond.
  - rewrite (upload_scored _ _ _ Hcond).
    destruct (score data w) as [[k|e0] w0]; intros [= <- <-]; eauto.
  - rewrite (upload_not_scored _ _ _ Hcond). discriminate.
Qed.

End Pipeline.

Section PipelineClaims.
Context `{P : Platform}.

(** C1: for a non-empty batch, with the model loaded and the detector in
    place, when [predict] returns verdicts for the batch's feature vectors
    (one per event, in order), the upload makes exactly that one call to
    [predict], returns a response, and the response reports as
    [processed_events] the length of the batch and as [anomalies_detected]
    the number of [Anomalous] verdicts. *)
Theorem upload_ready_counts (now : Clock) (data : list AnalyticsData)
        (w : World) (est : Estimator) (verdicts : list Z) :
  data <> [] ->
  model_loaded (globals w) = true ->
  anomaly_detector (globals w) = Some est ->
  predict est (map feature_vector data) = inr verdicts ->
  exists r,
    upload_analytics_data now data w
    = (Return r, emit (CallPredict (map feature_vector data)) w) /\
    processed_events r = Some (AInt (len data)) /\
    anomalies_detected r = Some (AInt (Z.of_nat (anomalous_verdicts verdicts))).
Proof.
  intros Hne Hloaded Hdet Hpred.
  exists (success_response now (len data) (count_anomalies verdicts)).
  split; [|split].
  - rewrite upload_scored by (rewrite Hloaded; now apply truthy_nonempty).
    rewrite score_cases, Hdet, extract_features_map, Hpred. reflexivity.
  - apply payload_processed.
  - rewrite payload_anomalies, count_anomalies_spec. reflexivity.
Qed.

(** C2: while [model_loaded] is false, the upload of any batch returns a
    response (it raises nothing and changes nothing), with
    [processed_events] the size of the batch and [anomalies_detected] 0. *)
Theorem upload_not_ready (now : Clock) (data : list AnalyticsData) (w : World) :
  model_loaded (globals w) = false ->
  exists r,
    upload_analytics_data now data w = (Return r, w) /\
    processed_events r = Some (AInt (len data)) /\
    anomalies_detected r = Some (AInt 0).
Proof.
  intros Hloaded. exists (success_response now (len data) 0).
  split; [|split; reflexivity].
  apply upload_not_scored. now rewrite Hloaded.
Qed.

(** C3: whatever the readiness, the upload of the empty batch returns a
    response with [processed_events] 0 and [anomalies_detected] 0; it raises
    nothing and leaves the journal as it was, so [predict] is not called. *)
Theorem upload_empty_batch (now : Clock) (w : World) :
  exists r,
    upload_analytics_data now [] w = (Return r, w) /\
    processed_events r = Some (AInt 0) /\
    anomalies_detected r = Some (AInt 0) /\
    calls is_predict_call (trace (snd (upload_analytics_data now [] w)))
    = calls is_predict_call (trace w).
Proof.
  assert (Hrun : upload_analytics_data now [] w
                 = (Return (success_response now 0 0), w)).
  { apply (upload_not_scored now [] w). apply andb_false_r. }
  exists (success_response now 0 0). rewrite Hrun. repeat split.
Qed.

(** C4: the vector built for an event is the reference one, the three
    lengths followed by the hour and the minute; it has length 5; the loop
    over a batch yields the reference vector of each event, in order; and
    an event that occurs several times in a batch yields the same vector
    each time. *)
Theorem feature_extraction_reference (ev : AnalyticsData)
        (data : list AnalyticsData) (n : nat) :
  feature_vector ev = reference_feature_vector ev /\
  List.length (feature_vector ev) = 5%nat /\
  extract_features data = map reference_feature_vector data /\
  extract_features (repeat ev n) = repeat (reference_feature_vector ev) n.
Proof.
  repeat split.
  - apply extract_features_map.
  - rewrite extract_features_map. apply map_repeat.
Qed.

(** C5: when the call to [predict] made for a non-empty batch with the model
    loaded fails with [e], the upload returns no response: it logs the
    error and raises the one [HTTPException] with status 500 whose detail
    carries the message of [e]; the process goes on serving. *)
Theorem upload_failure_is_server_error (now : Clock)
        (data : list AnalyticsData) (w w1 : World) (e : exn) :
  data <> [] ->
  model_loaded (globals w) = true ->
  anomaly_detector_predict (extract_features data) w = (Raise e, w1) ->
  upload_analytics_data now data w
  = (Raise (HTTPException 500
              ("Failed to process analytics data: " ++ str_exn e)),
     emit (LogError ("Error processing analytics data: " ++ str_exn e)) w1) /\
  step (Serve now (POST_upload data)) (mk_Process Serving w)
  = Some (mk_Process Serving
            (emit (LogError ("Error processing analytics data: " ++ str_exn e))
                  w1)).
Proof.
  intros Hne Hloaded Hfail.
  assert (Hrun : upload_analytics_data now data w
    = (Raise (HTTPException 500
                ("Failed to process analytics data: " ++ str_exn e)),
       emit (LogError ("Error processing analytics data: " ++ str_exn e)) w1)).
  { rewrite upload_scored by (rewrite Hloaded; now apply truthy_nonempty).
    unfold score, bind. rewrite Hfail. reflexivity. }
  split; [exact Hrun|].
  unfold step, handle, bind; simpl. rewrite Hrun. reflexivity.
Qed.

(** C9: the upload of any batch, in any state, leaves the two model globals
    as they were: the detector and the readiness flag after the call are
    those before it. *)
Theorem upload_is_read_only (now : Clock) (data : list AnalyticsData)
        (w : World) :
  anomaly_detector (globals (snd (upload_analytics_data now data w)))
  = anomaly_detector (globals w) /\
  model_loaded (globals (snd (upload_analytics_data now data w)))
  = model_loaded (globals w).
Proof. rewrite upload_globals. split; reflexivity. Qed.

(** C10: two batches whose events agree, position by position, on the
    lengths of [user_id], [page_url] and [session_id] and on the hour and
    minute of the timestamp have the same feature vectors, and the upload
    of one does exactly what the upload of the other does: same call to
    [predict], same response or same failure. *)
Theorem upload_depends_on_features_only (b1 b2 : list AnalyticsData) :
  Forall2 same_features b1 b2 ->
  extract_features b1 = extract_features b2 /\
  forall (now : Clock) (w : World),
    upload_analytics_data now b1 w = upload_analytics_data now b2 w.
Proof.
  intros Hsame.
  pose proof (same_features_extract _ _ Hsame) as Hext.
  split; [exact Hext|]. intros now w.
  assert (Hlen : len b1 = len b2).
  { unfold len. f_equal. exact (Forall2_length _ _ _ Hsame). }
  assert (Htruthy : truthy b1 = truthy b2).
  { destruct Hsame; reflexivity. }
  unfold upload_analytics_data. rewrite Hlen, Htruthy, Hext. reflexivity.
Qed.

End PipelineClaims.

(** ** The model lifecycle *)

Section Lifecycle.
Context `{P : Platform}.

Lemma load_ml_model_unfold :
  load_ml_model
  = try_except load_ml_model_try
      (fun e =>
         bind (logger_error ("Failed to load ML model: " ++ str_exn e))
              (fun _ => assign_model_loaded false)).
Proof. reflexivity. Qed.

Lemma calls_emit (test : Effect -> bool) (e : Effect) (w : World) :
  calls test (trace (emit e w))
  = (calls test (trace w) + (if test e then 1 else 0))%nat.
Proof.
  unfold calls, emit; simpl. rewrite List.filter_app, List.length_app; simpl.
  destruct (test e); reflexivity.
Qed.

(** What the try block does, by cases on the three library calls. *)
Lemma load_ml_model_try_cases (w : World) :
  load_ml_model_try w
  = let t0 := startup_time (globals w) in
    let w0 := emit (CallIsolationForest float_0_1 42) w in
    match IsolationForest float_0_1 42 with
    | inl e => (Raise e, w0)
    | inr est =>
        let w1 := mk_World (mk_Globals (Some est) (model_loaded (globals w)) t0)
                           (randn 1000 5 (np_random w)).2
                           (trace w0 ++ [CallRandn 1000 5]) in
        match (randn 1000 5 (np_random w)).1 with
        | inl e => (Raise e, w1)
        | inr X =>
            let w2 := mk_World
                        (mk_Globals (Some (fit est X).2)
                                    (model_loaded (globals w)) t0)
                        (np_random w1) (trace w1 ++ [CallFit X]) in
            match (fit est X).1 with
            | inl e => (Raise e, w2)
            | inr _ =>
                (Return tt,
                 mk_World (mk_Globals (Some (fit est X).2) true t0)
                          (np_random w1)
                          (trace w2 ++ [LogInfo "ML model loaded successfully"]))
            end
        end
    end.
Proof.
  unfold load_ml_model_try, new_IsolationForest, np_random_randn,
    anomaly_detector_fit, assign_anomaly_detector, assign_model_loaded,
    logger_info, read_global, lift_result, bind, raise, ret; simpl.
  destruct (IsolationForest float_0_1 42) as [e|est]; simpl; [reflexivity|].
  destruct (randn 1000 5 (np_random w)) as [[e|X] rng]; simpl; [reflexivity|].
  destruct (fit est X) as [[e|[]] est']; reflexivity.
Qed.

(** The startup hook returns, whatever the try block did. *)
Lemma load_ml_model_cases (w : World) :
  load_ml_model w
  = match load_ml_model_try w with
    | (Return _, w1) => (Return tt, w1)
    | (Raise e, w1) =>
        (Return tt,
         mk_World (mk_Globals (anomaly_detector (globals w1)) false
                              (startup_time (globals w1)))
                  (np_random w1)
                  (trace w1 ++ [LogError ("Failed to load ML model: "
                                            ++ str_exn e)]))
    end.
Proof.
  rewrite load_ml_model_unfold. unfold try_except.
  destruct (load_ml_model_try w) as [[[]|e] w1]; reflexivity.
Qed.

Lemma load_ml_model_returns (w : World) :
  exists w', load_ml_model w = (Return tt, w').
Proof.
  rewrite load_ml_model_cases.
  destruct (load_ml_model_try w) as [[u|e] w1]; eauto.
Qed.

(** A successful try block has set the flag; a failed one has not touched it. *)
Lemma load_ml_model_try_flag (w : World) :
  match load_ml_model_try w with
  | (Return _, w1) => model_loaded (globals w1) = true
  | (Raise _, w1) => model_loaded (globals w1) = model_loaded (globals w)
  end.
Proof.
  rewrite load_ml_model_try_cases; simpl.
  destruct (IsolationForest float_0_1 42) as [e|est]; [reflexivity|].
  destruct (randn 1000 5 (np_random w)) as [[e|X] rng]; simpl; [reflexivity|].
  destruct (fit est X) as [[e|[]] est']; reflexivity.
Qed.

(** The try block constructs at most one estimator and fits at most once. *)
Lemma load_ml_model_try_calls (w : World) :
  (calls is_fit_call (trace (snd (load_ml_model_try w)))
   <= calls is_fit_call (trace w) + 1)%nat /\
  (calls is_construction (trace (snd (load_ml_model_try w)))
   <= calls is_construction (trace w) + 1)%nat.
Proof.
  rewrite load_ml_model_try_cases; simpl.
  destruct (IsolationForest float_0_1 42) as [e|est]; simpl.
  { unfold calls; rewrite !List.filter_app, !List.length_app; simpl. lia. }
  destruct (randn 1000 5 (np_random w)) as [[e|X] rng]; simpl.
  { unfold calls; rewrite !List.filter_app, !List.length_app; simpl. lia. }
  destruct (fit est X) as [[e|[]] est']; simpl;
    unfold calls; rewrite !List.filter_app, !List.length_app; simpl; lia.
Qed.

(** No request handler assigns to a global. *)
Lemma handle_globals (now : Clock) (req : Request) (w : World) :
  globals (snd (handle now req w)) = globals w.
Proof.
  destruct req; unfold handle, bind; simpl; try reflexivity.
  - pose proof (upload_globals now data0 w) as H.
    destruct (upload_analytics_data now data0 w) as [[r|e] w']; exact H.
  - unfold get_ml_predictions, bind, read_global; simpl.
    destruct (model_loaded (globals w)); reflexivity.
Qed.

(** Once serving, the process keeps serving and its flag keeps its value. *)
Lemma serving_flag_constant (acts : list Action) (p : Process) :
  phase p = Serving ->
  Forall (fun q => is_ready q = is_ready p) (run acts p).
Proof.
  revert p. induction acts as [|a rest IH]; intros p Hphase; simpl.
  - repeat constructor.
  - constructor; [reflexivity|].
    unfold step. rewrite Hphase. destruct a as [|now req]; [constructor|].
    specialize (IH (mk_Process Serving (snd (handle now req (world p))))
                   eq_refl).
    assert (Hflag : is_ready (mk_Process Serving (snd (handle now req (world p))))
                    = is_ready p).
    { unfold is_ready; simpl. now rewrite handle_globals. }
    rewrite <- Hflag. exact IH.
Qed.

Lemma rises_repeat (b : bool) (n : nat) : rises (repeat b n) = 0%nat.
Proof.
  induction n as [|n IH]; [reflexivity|].
  simpl. destruct n; [reflexivity|]. simpl in *. rewrite IH.
  destruct b; reflexivity.
Qed.

Lemma falls_repeat (b : bool) (n : nat) : falls (repeat b n) = 0%nat.
Proof.
  induction n as [|n IH]; [reflexivity|].
  simpl. destruct n; [reflexivity|]. simpl in *. rewrite IH.
  destruct b; reflexivity.
Qed.

Lemma constant_flags (b : bool) (l : list Process) :
  Forall (fun q => is_ready q = b) l ->
  map is_ready l = repeat b (List.length l).
Proof.
  induction 1 as [|q l Hq _ IH]; simpl; [reflexivity|]. now rewrite Hq, IH.
Qed.

End Lifecycle.

Section LifecycleClaims.
Context `{P : Platform}.

(** C6: in every state and whatever construction, sampling and fitting do,
    [load_ml_model] returns and raises nothing.  When its try block fails
    with [e], the hook leaves [model_loaded] false and appends to the
    journal the error record carrying the message of [e]; when the block
    succeeds the flag is true.  Either way at most one estimator is
    constructed and [fit] is called at most once. *)
Theorem load_ml_model_never_raises (w : World) :
  exists w',
    load_ml_model w = (Return tt, w') /\
    (calls is_fit_call (trace w') <= calls is_fit_call (trace w) + 1)%nat /\
    (calls is_construction (trace w')
     <= calls is_construction (trace w) + 1)%nat /\
    match load_ml_model_try w with
    | (Return _, w1) => w' = w1 /\ model_loaded (globals w') = true
    | (Raise e, w1) =>
        model_loaded (globals w') = false /\
        trace w'
        = (trace w1 ++ [LogError ("Failed to load ML model: " ++ str_exn e)])%list
    end.
Proof.
  pose proof (load_ml_model_try_flag w) as Hflag.
  pose proof (load_ml_model_try_calls w) as [Hfit Hnew].
  rewrite load_ml_model_cases.
  destruct (load_ml_model_try w) as [[[]|e] w1]; simpl in *.
  - exists w1. repeat split; assumption.
  - eexists. split; [reflexivity|]. simpl.
    unfold calls in *. rewrite !List.filter_app, !List.length_app; simpl.
    repeat split; lia.
Qed.

(** C7: right after the module is imported [is_ready] is false.  Along any
    execution from there the flag rises at most once and never falls.  The
    startup step leads to the serving phase with the flag true exactly
    when the try block of the hook succeeded, and from then on every state
    of every execution has the flag of that state: ready for good, or
    not ready for good. *)
Theorem readiness_state_machine (t0 : float) (rng : RandomState)
        (acts : list Action) :
  is_ready (import_module t0 rng) = false /\
  (rises (map is_ready (run acts (import_module t0 rng))) <= 1)%nat /\
  falls (map is_ready (run acts (import_module t0 rng))) = 0%nat /\
  exists after,
    step Startup (import_module t0 rng) = Some after /\
    phase after = Serving /\
    is_ready after
    = match fst (load_ml_model_try (world (import_module t0 rng))) with
      | Return _ => true
      | Raise _ => false
      end /\
    Forall (fun p => is_ready p = is_ready after) (run acts after).
Proof.
  set (boot := import_module t0 rng).
  destruct (load_ml_model_returns (world boot)) as [w' Hload].
  assert (Hstep : step Startup boot = Some (mk_Process Serving w')).
  { unfold step. change (phase boot) with Booting. cbv iota.
    rewrite Hload. reflexivity. }
  assert (Hedges : (rises (map is_ready (run acts boot)) <= 1)%nat /\
                   falls (map is_ready (run acts boot)) = 0%nat).
  { destruct acts as [|a rest]; [simpl; lia|].
    destruct a as [|now req]; [|simpl; lia].
    change (run (Startup :: rest) boot)
      with (boot :: match step Startup boot with
                    | Some p' => run rest p'
                    | None => []
                    end).
    rewrite Hstep.
    pose proof (serving_flag_constant rest (mk_Process Serving w') eq_refl) as Hc.
    apply constant_flags in Hc.
    destruct (run rest (mk_Process Serving w')) as [|q l] eqn:Hrun.
    { destruct rest; discriminate Hrun. }
    rewrite map_cons. rewrite Hc.
    change (is_ready boot) with false.
    pose proof (rises_repeat (is_ready (mk_Process Serving w'))
                             (List.length (q :: l))) as Hr.
    pose proof (falls_repeat (is_ready (mk_Process Serving w'))
                             (List.length (q :: l))) as Hf.
    simpl in *. rewrite Hr, Hf.
    destruct (is_ready (mk_Process Serving w')); simpl; lia. }
  split; [reflexivity|]. split; [apply Hedges|]. split; [apply Hedges|].
  exists (mk_Process Serving w'). split; [exact Hstep|]. split; [reflexivity|].
  split; [|now apply serving_flag_constant].
  unfold is_ready. change (world (mk_Process Serving w')) with w'.
  pose proof (load_ml_model_try_flag (world boot)) as Hflag.
  rewrite load_ml_model_cases in Hload.
  destruct (load_ml_model_try (world boot)) as [[[]|e] w1]; cbn [fst].
  - injection Hload as <-. exact Hflag.
  - injection Hload as <-. reflexivity.
Qed.

End LifecycleClaims.

(** ** What holds in the states a process reaches *)

Section Reachable.
Context `{P : Platform}.

(** Once serving, the globals keep their values. *)
Lemma serving_globals_constant (acts : list Action) (p : Process) :
  phase p = Serving ->
  Forall (fun q => phase q = Serving /\ globals (world q) = globals (world p))
         (run acts p).
Proof.
  revert p. induction acts as [|a rest IH]; intros p Hphase; simpl.
  - repeat constructor. exact Hphase.
  - constructor; [now split|].
    unfold step. rewrite Hphase. destruct a as [|now req]; [constructor|].
    specialize (IH (mk_Process Serving (snd (handle now req (world p))))
                   eq_refl).
    eapply List.Forall_impl; [|exact IH].
    intros q [Hq Hg]. split; [exact Hq|].
    rewrite Hg. simpl. apply handle_globals.
Qed.

(** A successful try block leaves a detector in place. *)
Lemma load_ml_model_try_detector (w w1 : World) (u : unit) :
  load_ml_model_try w = (Return u, w1) ->
  exists est, anomaly_detector (globals w1) = Some est.
Proof.
  rewrite load_ml_model_try_cases; simpl.
  destruct (IsolationForest float_0_1 42) as [e|est]; [discriminate|].
  destruct (randn 1000 5 (np_random w)) as [[e|X] rng]; simpl; [discriminate|].
  destruct (fit est X) as [[e|[]] est']; simpl; [discriminate|].
  intros [= _ <-]. simpl. eauto.
Qed.

(** In every state of every execution, a set flag comes with a detector:
    the scoring branch never finds [None] in [anomaly_detector]. *)
Lemma ready_has_detector (t0 : float) (rng : RandomState)
      (acts : list Action) :
  Forall (fun p => is_ready p = true ->
                   exists est, anomaly_detector (globals (world p)) = Some est)
         (run acts (import_module t0 rng)).
Proof.
  destruct acts as [|a rest]; simpl.
  { repeat constructor. discriminate. }
  constructor; [discriminate|].
  destruct a as [|now req]; [|constructor].
  unfold step; simpl.
  set (w := mk_World (mk_Globals None false t0) rng []).
  pose proof (load_ml_model_try_flag w) as Hflag.
  pose proof (load_ml_model_try_detector w) as Hdet.
  rewrite (load_ml_model_cases w).
  destruct (load_ml_model_try w) as [[u|e] w1].
  - destruct (Hdet w1 u eq_refl) as [est Hest].
    eapply List.Forall_impl;
      [|exact (serving_globals_constant rest (mk_Process Serving w1) eq_refl)].
    intros q [_ Hg] _. rewrite Hg. simpl. eauto.
  - eapply List.Forall_impl;
      [|exact (serving_globals_constant rest (mk_Process Serving _) eq_refl)].
    intros q [_ Hg]. unfold is_ready. rewrite Hg. simpl. discriminate.
Qed.

End Reachable.

(** ** The claims at concrete inputs *)

Module ThresholdForestRuns.
Import ThresholdForest.

Lemma quiet_loud_vectors :
  extract_features [quiet; loud] = [[2; 5; 1; 10; 30]; [9; 15; 7; 23; 59]].
Proof. reflexivity. Qed.

Lemma quiet_loud_verdicts :
  predict (Platform := platform) (Some 60) (extract_features [quiet; loud])
  = inr [Normal; Anomalous].
Proof. reflexivity. Qed.

Lemma upload_ready_counts_witness :
  [quiet; loud] <> [] /\
  model_loaded (globals ready) = true /\
  anomaly_detector (globals ready) = Some (Some 60) /\
  predict (Platform := platform) (Some 60) (map feature_vector [quiet; loud])
  = inr [1; -1] /\
  exists r,
    upload_analytics_data (P := platform) clock [quiet; loud] ready
    = (Return r,
       emit (CallPredict (map feature_vector [quiet; loud])) ready) /\
    processed_events r = Some (AInt 2) /\
    anomalies_detected r = Some (AInt 1).
Proof.
  split; [discriminate|]. split; [reflexivity|]. split; [reflexivity|].
  split; [reflexivity|].
  apply (upload_ready_counts (P := platform) clock [quiet; loud] ready
                             (Some 60) [1; -1]);
    [discriminate | reflexivity | reflexivity | reflexivity].
Defined.

Lemma upload_not_ready_witness :
  model_loaded (globals fresh) = false /\
  exists r,
    upload_analytics_data (P := platform) clock [quiet; loud] fresh
    = (Return r, fresh) /\
    processed_events r = Some (AInt 2) /\
    anomalies_detected r = Some (AInt 0).
Proof.
  split; [reflexivity|].
  apply (upload_not_ready (P := platform) clock [quiet; loud] fresh).
  reflexivity.
Defined.

Lemma upload_failure_is_server_error_witness :
  [quiet; loud] <> [] /\
  model_loaded (globals unfitted) = true /\
  upload_analytics_data (P := platform) clock [quiet; loud] unfitted
  = (Raise (HTTPException 500
      "Failed to process analytics data: This IsolationForest instance is not fitted yet."),
     emit (LogError
      "Error processing analytics data: This IsolationForest instance is not fitted yet.")
          (emit (CallPredict (extract_features [quiet; loud])) unfitted)).
Proof.
  split; [discriminate|]. split; [reflexivity|].
  apply (upload_failure_is_server_error (P := platform) clock [quiet; loud]
           unfitted
           (emit (CallPredict (extract_features [quiet; loud])) unfitted)
           not_fitted);
    [discriminate | reflexivity | reflexivity].
Defined.

Lemma quiet_same_features : same_features quiet quiet'.
Proof. repeat split. Qed.

Lemma loud_same_features : same_features loud loud.
Proof. repeat split. Qed.

Lemma upload_depends_on_features_only_witness :
  Forall2 same_features [quiet; loud] [quiet'; loud] /\
  quiet <> quiet' /\
  extract_features [quiet; loud] = extract_features [quiet'; loud] /\
  upload_analytics_data (P := platform) clock [quiet; loud] ready
  = upload_analytics_data (P := platform) clock [quiet'; loud] ready.
Proof.
  assert (Hsame : Forall2 same_features [quiet; loud] [quiet'; loud]).
  { repeat constructor. }
  split; [exact Hsame|]. split; [discriminate|].
  destruct (upload_depends_on_features_only (P := platform)
              [quiet; loud] [quiet'; loud] Hsame) as [Hext Hrun].
  split; [exact Hext | exact (Hrun clock ready)].
Defined.

(** The empty batch, before and after the model is loaded. *)
Lemma empty_batch_runs :
  upload_analytics_data (P := platform) clock [] fresh
  = (Return (success_response clock 0 0), fresh) /\
  upload_analytics_data (P := platform) clock [] ready
  = (Return (success_response clock 0 0), ready).
Proof. split; reflexivity. Qed.

(** A start that succeeds: the flag rises at the startup step and stays;
    a second startup event is not a step of the process. *)
Lemma startup_then_requests :
  map is_ready
      (run (P := platform)
           [Startup; Serve clock (POST_upload [quiet; loud]);
            Serve clock GET_health; Serve clock GET_predictions]
           (import_module (P := platform) (S754_zero false) 7))
  = [false; true; true; true; true] /\
  step (P := platform) Startup (mk_Process Serving ready) = None.
Proof. split; reflexivity. Qed.

(** A start on which fitting fails: the hook returns, the flag stays down,
    the failure is the last record of the journal, and uploads are served
    with no anomaly reported. *)
Lemma starved_startup :
  fst (load_ml_model (P := starved) starved_fresh) = Return tt /\
  model_loaded (globals (snd (load_ml_model (P := starved) starved_fresh))) = false /\
  last (trace (snd (load_ml_model (P := starved) starved_fresh)))
  = Some (LogError "Failed to load ML model: Unable to allocate array") /\
  map is_ready
      (run (P := starved)
           [Startup; Serve clock (POST_upload [quiet; loud]);
            Serve clock GET_predictions]
           (import_module (P := starved) (S754_zero false) 7))
  = [false; false; false; false] /\
  fst (upload_analytics_data (P := starved) clock [quiet; loud]
         (snd (load_ml_model (P := starved) starved_fresh)))
  = Return (success_response clock 2 0).
Proof. split; [|split; [|split; [|split]]]; reflexivity. Qed.

(** The hook itself lowers a raised flag when its try block fails; the flag
    never falls in an execution because the startup event fires once. *)
Lemma load_ml_model_on_ready_world :
  model_loaded (globals starved_ready) = true /\
  model_loaded (globals (snd (load_ml_model (P := starved) starved_ready))) = false.
Proof. split; reflexivity. Qed.

End ThresholdForestRuns.

(** * The handlers as a whole *)

Section Handlers.
Context `{P : Platform}.

Lemma calls_nil (test : Effect -> bool) : calls test [] = 0%nat.
Proof. reflexivity. Qed.

Lemma calls_app (test : Effect -> bool) (t1 t2 : list Effect) :
  calls test (t1 ++ t2) = (calls test t1 + calls test t2)%nat.
Proof. unfold calls. now rewrite List.filter_app, List.length_app. Qed.

(** Everything the upload handler can do, by cases on the flag, the batch,
    the detector and [predict]. *)
Lemma upload_cases (now : Clock) (data : list AnalyticsData) (w : World) :
  upload_analytics_data now data w
  = if model_loaded (globals w) && truthy data then
      match anomaly_detector (globals w) with
      | None =>
          (Raise (HTTPException 500
                    ("Failed to process analytics data: "
                       ++ str_exn (AttributeError_NoneType "predict"))),
           emit (LogError ("Error processing analytics data: "
                             ++ str_exn (AttributeError_NoneType "predict"))) w)
      | Some est =>
          match predict est (extract_features data) with
          | inl e =>
              (Raise (HTTPException 500
                        ("Failed to process analytics data: " ++ str_exn e)),
               emit (LogError ("Error processing analytics data: "
                                 ++ str_exn e))
                    (emit (CallPredict (extract_features data)) w))
          | inr verdicts =>
              (Return (success_response now (len data)
                         (count_anomalies verdicts)),
               emit (CallPredict (extract_features data)) w)
          end
      end
    else (Return (success_response now (len data) 0), w).
Proof.
  destruct (model_loaded (globals w) && truthy data) eqn:Hcond.
  - rewrite (upload_scored _ _ _ Hcond), score_cases.
    destruct (anomaly_detector (globals w)) as [est|]; [|reflexivity].
    destruct (predict est (extract_features data)); reflexivity.
  - apply upload_not_scored, Hcond.
Qed.

(** What a request appends to the journal: nothing, a call to [predict],
    an error record, or a call to [predict] followed by an error record. *)
Lemma handle_trace (now : Clock) (req : Request) (w : World) :
  exists delta,
    trace (snd (handle now req w)) = (trace w ++ delta)%list /\
    (delta = [] \/
     (exists X, delta = [CallPredict X]) \/
     (exists m, delta = [LogError m]) \/
     (exists X m, delta = [CallPredict X; LogError m])).
Proof.
  destruct req; unfold handle, bind; simpl;
    try (exists []; split; [now rewrite app_nil_r | now left]).
  - rewrite upload_cases.
    destruct (model_loaded (globals w) && truthy data0);
      [|exists []; simpl; split; [now rewrite app_nil_r | now left]].
    destruct (anomaly_detector (globals w)) as [est|]; simpl;
      [|eexists; split; [reflexivity | right; right; left; eauto]].
    destruct (predict est (extract_features data0)); simpl.
    + eexists. split; [now rewrite <- app_assoc | right; right; right; eauto].
    + eexists. split; [reflexivity | right; left; eauto].
  - unfold get_ml_predictions, bind, read_global; simpl.
    destruct (model_loaded (globals w)); exists []; simpl;
      (split; [now rewrite app_nil_r | now left]).
Qed.

Lemma handle_np_random (now : Clock) (req : Request) (w : World) :
  np_random (snd (handle now req w)) = np_random w.
Proof.
  destruct req; unfold handle, bind; simpl; try reflexivity.
  - rewrite upload_cases.
    destruct (model_loaded (globals w) && truthy data0); [|reflexivity].
    destruct (anomaly_detector (globals w)) as [est|]; [|reflexivity].
    destruct (predict est (extract_features data0)); reflexivity.
  - unfold get_ml_predictions, bind, read_global; simpl.
    destruct (model_loaded (globals w)); reflexivity.
Qed.

(** X1: whatever a handler raises is an [HTTPException]: the upload raises
    only status 500, with the message of the failure in its detail and only
    when the model is loaded and the batch is not empty; the predictions
    endpoint raises only status 503, only while the model is not loaded and
    without touching the state; the other endpoints raise nothing. *)
Theorem handle_raises_only_http (now : Clock) (req : Request) (w w' : World)
        (e : exn) :
  handle now req w = (Raise e, w') ->
  (exists data e0,
      req = POST_upload data /\
      e = HTTPException 500
            ("Failed to process analytics data: " ++ str_exn e0) /\
      model_loaded (globals w) = true /\ data <> []) \/
  (req = GET_predictions /\
   e = HTTPException 503 "ML model not loaded" /\
   model_loaded (globals w) = false /\ w' = w).
Proof.
  destruct req; unfold handle, bind; simpl; try discriminate.
  - rewrite upload_cases.
    destruct (model_loaded (globals w)) eqn:Hloaded; simpl; [|discriminate].
    destruct data0 as [|ev rest]; simpl; [discriminate|].
    destruct (anomaly_detector (globals w)) as [est|].
    + destruct (predict est (extract_features (ev :: rest))) as [e0|vs];
        [|discriminate].
      intros [= <- <-]. left. exists (ev :: rest), e0.
      repeat split. discriminate.
    + intros [= <- <-]. left.
      exists (ev :: rest), (AttributeError_NoneType "predict").
      repeat split. discriminate.
  - unfold get_ml_predictions, bind, read_global; simpl.
    destruct (model_loaded (globals w)) eqn:Hloaded; simpl; [discriminate|].
    intros [= <- <-]. right. repeat split.
Qed.

(** X2: a request never trains and never draws random numbers: whatever
    the request and the state, the handler leaves the globals and numpy's
    generator as they were, only appends to the journal, and what it
    appends holds no construction, no call to [randn], no call to [fit] and
    at most one call to [predict]. *)
Theorem handle_effects (now : Clock) (req : Request) (w : World) :
  globals (snd (handle now req w)) = globals w /\
  np_random (snd (handle now req w)) = np_random w /\
  exists delta,
    trace (snd (handle now req w)) = (trace w ++ delta)%list /\
    calls is_construction delta = 0%nat /\
    calls is_randn_call delta = 0%nat /\
    calls is_fit_call delta = 0%nat /\
    (calls is_predict_call delta <= 1)%nat.
Proof.
  split; [apply handle_globals|]. split; [apply handle_np_random|].
  destruct (handle_trace now req w)
    as (delta & Htrace & [->|[[X ->]|[[m ->]|(X & m & ->)]]]);
    eexists; (split; [exact Htrace|]); cbn; repeat split; lia.
Qed.

(** The reply to a request depends on the state through the globals only. *)
Lemma handle_reply_globals (now : Clock) (req : Request) (w1 w2 : World) :
  globals w1 = globals w2 ->
  fst (handle now req w1) = fst (handle now req w2).
Proof.
  intros Hg. destruct req; unfold handle, bind; simpl; try reflexivity.
  - unfold health_check, bind, read_global, ret; simpl. now rewrite Hg.
  - rewrite !upload_cases, Hg.
    destruct (model_loaded (globals w2) && truthy data0); [|reflexivity].
    destruct (anomaly_detector (globals w2)) as [est|]; [|reflexivity].
    destruct (predict est (extract_features data0)); reflexivity.
  - unfold get_ml_predictions, bind, read_global; simpl. rewrite Hg.
    destruct (model_loaded (globals w2)); reflexivity.
Qed.

(** While the flag is down a request changes nothing at all. *)
Lemma handle_not_ready (now : Clock) (req : Request) (w : World) :
  model_loaded (globals w) = false -> snd (handle now req w) = w.
Proof.
  intros Hloaded. destruct req; unfold handle, bind; simpl; try reflexivity.
  - rewrite upload_cases, Hloaded. reflexivity.
  - unfold get_ml_predictions, bind, read_global; simpl.
    rewrite Hloaded. reflexivity.
Qed.

(** A property that holds after import, after the startup hook and across
    every request holds in every state of every execution. *)
Lemma run_from_import (I : Process -> Prop) (t0 : float) (rng : RandomState)
      (acts : list Action) :
  I (import_module t0 rng) ->
  (forall w', load_ml_model (world (import_module t0 rng)) = (Return tt, w') ->
              I (mk_Process Serving w')) ->
  (forall p now req, phase p = Serving -> I p ->
                     I (mk_Process Serving (snd (handle now req (world p))))) ->
  Forall I (run acts (import_module t0 rng)).
Proof.
  intros Hboot Hstart Hserve.
  assert (Hrun : forall rest p, phase p = Serving -> I p ->
                                Forall I (run rest p)).
  { induction rest as [|a rest IH]; intros p Hphase Hp; simpl.
    - repeat constructor. exact Hp.
    - constructor; [exact Hp|]. unfold step. rewrite Hphase.
      destruct a as [|now req]; [constructor|].
      apply IH; [reflexivity | now apply Hserve]. }
  destruct acts as [|a rest]; simpl; [repeat constructor; exact Hboot|].
  constructor; [exact Hboot|].
  destruct a as [|now req]; [|constructor].
  unfold step. change (phase (import_module t0 rng)) with Booting. cbv iota.
  destruct (load_ml_model_returns (world (import_module t0 rng)))
    as [w' Hload].
  rewrite Hload. apply Hrun; [reflexivity | now apply Hstart].
Qed.

(** The try block makes no call to [predict]. *)
Lemma load_ml_model_try_no_predict (w : World) :
  calls is_predict_call (trace (snd (load_ml_model_try w)))
  = calls is_predict_call (trace w).
Proof.
  rewrite load_ml_model_try_cases; simpl.
  destruct (IsolationForest float_0_1 42) as [e|est]; simpl.
  { rewrite calls_app. cbn. lia. }
  destruct (randn 1000 5 (np_random w)) as [[e|X] rng]; simpl.
  { rewrite !calls_app. cbn. lia. }
  destruct (fit est X) as [[e|[]] est']; simpl; rewrite !calls_app; cbn; lia.
Qed.

(** The hook as a whole constructs and fits at most once each. *)
Lemma load_ml_model_calls (w : World) :
  (calls is_fit_call (trace (snd (load_ml_model w)))
   <= calls is_fit_call (trace w) + 1)%nat /\
  (calls is_construction (trace (snd (load_ml_model w)))
   <= calls is_construction (trace w) + 1)%nat.
Proof.
  pose proof (load_ml_model_try_calls w) as [Hfit Hnew].
  rewrite load_ml_model_cases.
  destruct (load_ml_model_try w) as [[[]|e] w1]; simpl in *.
  - split; assumption.
  - rewrite !calls_app. cbn. split; lia.
Qed.

End Handlers.

Section ProcessInvariants.
Context `{P : Platform}.

(** X3: the model is trained at most once in the life of a process: in
    every state of every execution from import, the journal holds at most
    one construction of an estimator and at most one call to [fit]. *)
Theorem training_at_most_once (t0 : float) (rng : RandomState)
        (acts : list Action) :
  Forall (fun p =>
            (calls is_construction (trace (world p)) <= 1)%nat /\
            (calls is_fit_call (trace (world p)) <= 1)%nat)
         (run acts (import_module t0 rng)).
Proof.
  apply run_from_import.
  - cbn. split; lia.
  - intros w' Hload.
    pose proof (load_ml_model_calls (world (import_module t0 rng)))
      as [Hfit Hnew].
    rewrite Hload in Hfit, Hnew. cbn in Hfit, Hnew. cbn. split; lia.
  - intros p now req _ [Hnew Hfit]. simpl.
    destruct (handle_trace now req (world p))
      as (delta & -> & [->|[[X ->]|[[m ->]|(X & m & ->)]]]);
      rewrite !calls_app; cbn; split; lia.
Qed.

(** X4: when the try block of the startup hook fails, the process is
    degraded for good: in every state of every execution the flag is down
    and the journal holds no call to [predict]. *)
Theorem failed_training_never_predicts (t0 : float) (rng : RandomState)
        (acts : list Action) (e : exn) (w1 : World) :
  load_ml_model_try (world (import_module t0 rng)) = (Raise e, w1) ->
  Forall (fun p => is_ready p = false /\
                   calls is_predict_call (trace (world p)) = 0%nat)
         (run acts (import_module t0 rng)).
Proof.
  intros Htry. apply run_from_import.
  - split; reflexivity.
  - intros w'. rewrite load_ml_model_cases.
    pose proof (load_ml_model_try_no_predict (world (import_module t0 rng)))
      as Hnone.
    rewrite Htry in *. intros [= <-]. split; [reflexivity|].
    cbn [world trace snd] in *. rewrite calls_app, Hnone. reflexivity.
  - intros p now req _ [Hflag Hnone]. unfold is_ready in *. simpl.
    rewrite (handle_not_ready now req (world p) Hflag). now split.
Qed.

(** X5: in every state of every execution, either the flag is down or a
    detector is in place: the scoring branch of the upload never finds
    [None] in [anomaly_detector]. *)
Theorem flag_implies_detector (t0 : float) (rng : RandomState)
        (acts : list Action) :
  Forall (fun p => is_ready p = false \/
                   exists est, anomaly_detector (globals (world p)) = Some est)
         (run acts (import_module t0 rng)).
Proof.
  eapply List.Forall_impl; [|apply ready_has_detector].
  intros p Hp. cbv beta in Hp.
  destruct (is_ready p); [right; apply Hp; reflexivity | left; reflexivity].
Qed.

(** X6: once the process serves, the service keeps no state between
    requests: the reply to a request is the same in every later state,
    whatever requests were served in between. *)
Theorem replies_independent_of_history (now : Clock) (req : Request)
        (acts : list Action) (p : Process) :
  phase p = Serving ->
  Forall (fun q => fst (handle now req (world q))
                   = fst (handle now req (world p)))
         (run acts p).
Proof.
  intros Hphase.
  eapply List.Forall_impl; [|exact (serving_globals_constant acts p Hphase)].
  intros q [_ Hg]. now apply handle_reply_globals.
Qed.

End ProcessInvariants.

(** ** Counting, logging and the shape of replies *)

Lemma anomalous_verdicts_app (l1 l2 : list Z) :
  anomalous_verdicts (l1 ++ l2)
  = (anomalous_verdicts l1 + anomalous_verdicts l2)%nat.
Proof. unfold anomalous_verdicts. apply count_occ_app. Qed.

Lemma anomalous_verdicts_bound (l : list Z) :
  (anomalous_verdicts l <= List.length l)%nat.
Proof. unfold anomalous_verdicts. apply count_occ_bound. Qed.

Lemma count_anomalies_range (l : list Z) :
  0 <= count_anomalies l <= len l.
Proof.
  rewrite count_anomalies_spec. pose proof (anomalous_verdicts_bound l).
  unfold len. lia.
Qed.

(** X7: the count of anomalies lies between 0 and the number of verdicts,
    is 0 exactly when no verdict equals -1 (any other value, not only 1,
    counts as normal), and the count of a concatenation is the sum of the
    counts. *)
Theorem count_anomalies_bounds (l1 l2 : list Z) :
  0 <= count_anomalies l1 <= len l1 /\
  (count_anomalies l1 =? 0) = forallb (fun a => negb (a =? -1)) l1 /\
  count_anomalies (l1 ++ l2) = count_anomalies l1 + count_anomalies l2.
Proof.
  rewrite !count_anomalies_spec, anomalous_verdicts_app.
  pose proof (anomalous_verdicts_bound l1) as Hb.
  split; [unfold len; lia|]. split; [|lia].
  clear Hb. induction l1 as [|a l IH]; [reflexivity|].
  unfold anomalous_verdicts, Anomalous in *. simpl.
  destruct (Z.eq_dec a (-1)) as [->|Hne].
  - simpl. destruct (count_occ Z.eq_dec l (-1)); reflexivity.
  - destruct (Z.eqb_spec a (-1)) as [He|_]; [contradiction|]. simpl. exact IH.
Qed.

Section Replies.
Context `{P : Platform}.

(** X8: when the detector returns one verdict per vector, the upload
    returns, and the anomaly count it reports lies between 0 and the number
    of processed events. *)
Theorem upload_anomalies_bounded (now : Clock) (data : list AnalyticsData)
        (w : World) (est : Estimator) (verdicts : list Z) :
  anomaly_detector (globals w) = Some est ->
  predict est (extract_features data) = inr verdicts ->
  List.length verdicts = List.length data ->
  exists r w' k,
    upload_analytics_data now data w = (Return r, w') /\
    processed_events r = Some (AInt (len data)) /\
    anomalies_detected r = Some (AInt k) /\
    0 <= k <= len data.
Proof.
  intros Hdet Hpred Hlen. rewrite upload_cases, Hdet, Hpred.
  destruct (model_loaded (globals w) && truthy data).
  - do 2 eexists. exists (count_anomalies verdicts).
    split; [reflexivity|]. split; [reflexivity|]. split; [reflexivity|].
    pose proof (count_anomalies_range verdicts) as Hb.
    unfold len in *. rewrite <- Hlen. exact Hb.
  - do 2 eexists. exists 0.
    split; [reflexivity|]. split; [reflexivity|]. split; [reflexivity|].
    unfold len. lia.
Qed.

(** X9: every response the upload returns has status "success", reports
    the length of the batch as [processed_events] and a non-negative
    [anomalies_detected], carries a message that spells out these same two
    numbers, and is stamped with the two clock readings of the call. *)
Theorem upload_response_shape (now : Clock) (data : list AnalyticsData)
        (w w' : World) (r : AnalyticsResponse) :
  upload_analytics_data now data w = (Return r, w') ->
  status r = "success" /\
  processed_events r = Some (AInt (len data)) /\
  payload "processing_time" r = Some (AFloat (time_time now)) /\
  response_timestamp r = datetime_now now /\
  exists k,
    0 <= k /\
    anomalies_detected r = Some (AInt k) /\
    message r
    = "Processed " ++ pretty (len data) ++ " events, detected "
        ++ pretty k ++ " anomalies".
Proof.
  rewrite upload_cases.
  destruct (model_loaded (globals w) && truthy data).
  - destruct (anomaly_detector (globals w)) as [est|]; [|discriminate].
    destruct (predict est (extract_features data)) as [e|verdicts];
      [discriminate|].
    intros [= <- _]. repeat split.
    exists (count_anomalies verdicts). repeat split.
    apply (count_anomalies_range verdicts).
  - intros [= <- _]. repeat split. exists 0. repeat split. lia.
Qed.

(** X10: the upload writes a log record exactly when it raises: a call
    that returns a response logs nothing, a call that raises logs one
    record. *)
Theorem upload_logs_iff_raises (now : Clock) (data : list AnalyticsData)
        (w : World) :
  calls is_log_record (trace (snd (upload_analytics_data now data w)))
  = (calls is_log_record (trace w)
     + (if raised (fst (upload_analytics_data now data w)) then 1 else 0))%nat.
Proof.
  rewrite upload_cases.
  destruct (model_loaded (globals w) && truthy data); [|simpl; lia].
  destruct (anomaly_detector (globals w)) as [est|];
    [|simpl; rewrite calls_app; reflexivity].
  destruct (predict est (extract_features data)); simpl;
    rewrite !calls_app; cbn; lia.
Qed.

(** X11: the health endpoint and the predictions endpoint agree on the
    model: in any state the health check returns, changes nothing, reports
    the overall status "healthy" whatever the model, and reports the model
    "unhealthy" exactly when the predictions endpoint answers with its
    error. *)
Theorem health_agrees_with_predictions (now1 now2 : Clock) (w : World) :
  exists r,
    health_check now1 w = (Return r, w) /\
    health_status r = "healthy" /\
    services r !! "ml_model"
    = Some (if raised (fst (get_ml_predictions now2 w))
            then "unhealthy" else "healthy") /\
    raised (fst (get_ml_predictions now2 w)) = negb (model_loaded (globals w)).
Proof.
  unfold health_check, get_ml_predictions, bind, read_global, ret; simpl.
  eexists. split; [reflexivity|]. simpl.
  destruct (model_loaded (globals w)); repeat split.
Qed.

(** X12: the startup hook writes exactly one log record, the last entry
    it appends to the journal: the success message when it leaves the flag
    up, an error record when it leaves the flag down. *)
Theorem startup_logs_once (w : World) :
  exists delta,
    trace (snd (load_ml_model w)) = (trace w ++ delta)%list /\
    calls is_log_record delta = 1%nat /\
    if model_loaded (globals (snd (load_ml_model w)))
    then last delta = Some (LogInfo "ML model loaded successfully")
    else exists e,
        last delta
        = Some (LogError ("Failed to load ML model: " ++ str_exn e)).
Proof.
  rewrite load_ml_model_cases, load_ml_model_try_cases; simpl.
  destruct (IsolationForest float_0_1 42) as [e|est]; simpl.
  { eexists. rewrite <- !app_assoc. split; [reflexivity|]. cbn. eauto. }
  destruct (randn 1000 5 (np_random w)) as [[e|X] rng]; simpl.
  { eexists. rewrite <- !app_assoc. split; [reflexivity|]. cbn. eauto. }
  destruct (fit est X) as [[e|[]] est']; simpl;
    eexists; rewrite <- !app_assoc; (split; [reflexivity|]); cbn; eauto.
Qed.

(** X13: the detector is assigned before it is fitted: when construction
    and sampling succeed and [fit] fails, the hook leaves the estimator,
    as [fit] left it, in [anomaly_detector] with the flag down, and the
    generator has been advanced by the draw. *)
Theorem failed_fit_leaves_detector (w : World) (est est' : Estimator)
        (X : ndarray) (rng : RandomState) (e : exn) :
  IsolationForest float_0_1 42 = inr est ->
  randn 1000 5 (np_random w) = (inr X, rng) ->
  fit est X = (inl e, est') ->
  anomaly_detector (globals (snd (load_ml_model w))) = Some est' /\
  model_loaded (globals (snd (load_ml_model w))) = false /\
  np_random (snd (load_ml_model w)) = rng.
Proof.
  intros Hnew Hdraw Hfit.
  rewrite load_ml_model_cases, load_ml_model_try_cases; simpl.
  rewrite Hnew, Hdraw; simpl. rewrite Hfit; simpl. repeat split.
Qed.

(** X14: when the constructor fails, nothing else is attempted: the hook
    draws no sample and fits nothing, and leaves [anomaly_detector] and the
    generator as they were, with the flag down. *)
Theorem failed_construction_stops (w : World) (e : exn) :
  IsolationForest float_0_1 42 = inl e ->
  anomaly_detector (globals (snd (load_ml_model w)))
  = anomaly_detector (globals w) /\
  model_loaded (globals (snd (load_ml_model w))) = false /\
  np_random (snd (load_ml_model w)) = np_random w /\
  trace (snd (load_ml_model w))
  = (trace w ++ [CallIsolationForest float_0_1 42;
                 LogError ("Failed to load ML model: " ++ str_exn e)])%list.
Proof.
  intros Hnew.
  rewrite load_ml_model_cases, load_ml_model_try_cases; simpl.
  rewrite Hnew; simpl. rewrite <- app_assoc. repeat split.
Qed.

End Replies.

(** ** The handlers at concrete inputs *)

Module ThresholdForestChecks.
Import ThresholdForest.

Lemma handle_raises_only_http_witness :
  handle (P := platform) clock GET_predictions fresh
  = (Raise (HTTPException 503 "ML model not loaded"), fresh) /\
  ((exists data e0,
       GET_predictions = POST_upload data /\
       HTTPException 503 "ML model not loaded"
       = HTTPException 500
           ("Failed to process analytics data: " ++ str_exn e0) /\
       model_loaded (globals fresh) = true /\ data <> []) \/
   (GET_predictions = GET_predictions /\
    HTTPException 503 "ML model not loaded"
    = HTTPException 503 "ML model not loaded" /\
    model_loaded (globals fresh) = false /\ fresh = fresh)).
Proof.
  split; [reflexivity|].
  apply (handle_raises_only_http (P := platform) clock GET_predictions
                                 fresh fresh).
  reflexivity.
Defined.

Lemma failed_training_never_predicts_witness :
  load_ml_model_try (P := starved)
    (world (import_module (P := starved) (S754_zero false) 7))
  = (Raise out_of_memory,
     snd (load_ml_model_try (P := starved)
            (world (import_module (P := starved) (S754_zero false) 7)))) /\
  Forall (fun p => is_ready p = false /\
                   calls is_predict_call (trace (world p)) = 0%nat)
         (run (P := starved)
              [Startup; Serve clock (POST_upload [quiet; loud]);
               Serve clock GET_predictions]
              (import_module (P := starved) (S754_zero false) 7)).
Proof.
  split; [reflexivity|].
  apply (failed_training_never_predicts (P := starved) (S754_zero false) 7 _
           out_of_memory
           (snd (load_ml_model_try (P := starved)
                   (world (import_module (P := starved) (S754_zero false) 7))))).
  reflexivity.
Defined.

Lemma replies_independent_of_history_witness :
  phase (mk_Process (P := platform) Serving ready) = Serving /\
  Forall (fun q => fst (handle clock (POST_upload [quiet; loud]) (world q))
                   = fst (handle clock (POST_upload [quiet; loud]) ready))
         (run (P := platform)
              [Serve clock GET_health; Serve clock (POST_upload [loud])]
              (mk_Process Serving ready)).
Proof.
  split; [reflexivity|].
  apply (replies_independent_of_history (P := platform) clock
           (POST_upload [quiet; loud])
           [Serve clock GET_health; Serve clock (POST_upload [loud])]
           (mk_Process Serving ready)).
  reflexivity.
Defined.

Lemma upload_anomalies_bounded_witness :
  anomaly_detector (globals ready) = Some (Some 60) /\
  predict (Platform := platform) (Some 60) (extract_features [quiet; loud])
  = inr [1; -1] /\
  List.length [1; -1] = List.length [quiet; loud] /\
  exists r w' k,
    upload_analytics_data (P := platform) clock [quiet; loud] ready
    = (Return r, w') /\
    processed_events r = Some (AInt 2) /\
    anomalies_detected r = Some (AInt k) /\
    0 <= k <= 2.
Proof.
  split; [reflexivity|]. split; [reflexivity|]. split; [reflexivity|].
  apply (upload_anomalies_bounded (P := platform) clock [quiet; loud] ready
                                  (Some 60) [1; -1]); reflexivity.
Defined.

Lemma upload_response_shape_witness :
  upload_analytics_data (P := platform) clock [quiet; loud] ready
  = (Return (success_response clock 2 1),
     emit (CallPredict (extract_features [quiet; loud])) ready) /\
  status (success_response clock 2 1) = "success" /\
  processed_events (success_response clock 2 1) = Some (AInt 2) /\
  payload "processing_time" (success_response clock 2 1)
  = Some (AFloat (time_time clock)) /\
  response_timestamp (success_response clock 2 1) = noon /\
  exists k,
    0 <= k /\
    anomalies_detected (success_response clock 2 1) = Some (AInt k) /\
    message (success_response clock 2 1)
    = "Processed " ++ pretty 2 ++ " events, detected "
        ++ pretty k ++ " anomalies".
Proof.
  split; [reflexivity|].
  apply (upload_response_shape (P := platform) clock [quiet; loud] ready
           (emit (CallPredict (extract_features [quiet; loud])) ready)
           (success_response clock 2 1)).
  reflexivity.
Defined.

Lemma failed_fit_leaves_detector_witness :
  IsolationForest (Platform := starved) float_0_1 42 = inr None /\
  randn (Platform := starved) 1000 5 (np_random starved_fresh)
  = (inr (repeat (repeat 1 5) 1000), 1282168116) /\
  fit (Platform := starved) None (repeat (repeat 1 5) 1000)
  = (inl out_of_memory, None) /\
  anomaly_detector (globals (snd (load_ml_model (P := starved) starved_fresh)))
  = Some None /\
  model_loaded (globals (snd (load_ml_model (P := starved) starved_fresh)))
  = false /\
  np_random (snd (load_ml_model (P := starved) starved_fresh)) = 1282168116.
Proof.
  split; [reflexivity|]. split; [reflexivity|]. split; [reflexivity|].
  apply (failed_fit_leaves_detector (P := starved) starved_fresh None None
           (repeat (repeat 1 5) 1000) 1282168116 out_of_memory);
    reflexivity.
Defined.

Lemma failed_construction_stops_witness :
  IsolationForest (Platform := unbuildable) float_0_1 42 = inl bad_parameter /\
  anomaly_detector
    (globals (snd (load_ml_model (P := unbuildable) unbuildable_fresh)))
  = None /\
  model_loaded
    (globals (snd (load_ml_model (P := unbuildable) unbuildable_fresh)))
  = false /\
  np_random (snd (load_ml_model (P := unbuildable) unbuildable_fresh)) = 7 /\
  trace (snd (load_ml_model (P := unbuildable) unbuildable_fresh))
  = [CallIsolationForest float_0_1 42;
     LogError ("Failed to load ML model: " ++ str_exn bad_parameter)].
Proof.
  split; [reflexivity|].
  apply (failed_construction_stops (P := unbuildable) unbuildable_fresh
                                   bad_parameter).
  reflexivity.
Defined.


(** The journal of a process: one construction, one draw, one fit, then
    one call to [predict] per scored upload. *)
Lemma journal_of_a_run :
  map (fun p => (calls is_construction (trace (world p)),
                 calls is_fit_call (trace (world p)),
                 calls is_predict_call (trace (world p))))
      (run (P := platform)
           [Startup; Serve clock (POST_upload [quiet; loud]);
            Serve clock GET_health; Serve clock (POST_upload []);
            Serve clock (POST_upload [loud])]
           (import_module (P := platform) (S754_zero false) 7))
  = [(0, 0, 0); (1, 1, 0); (1, 1, 1); (1, 1, 1); (1, 1, 1); (1, 1, 2)]%nat.
Proof. reflexivity. Qed.

End ThresholdForestChecks.
